(** * backend/main.py: the [POST /ai] chat endpoint

    A shallow embedding of [backend/main.py]: the request model [Message]
    (a pydantic [BaseModel] with [extra="ignore"]), the route handler
    [process_ai_message], and the request cycle that the web framework runs
    around it (parse the JSON body into a [Message], call the handler,
    answer 200 with the envelope or 422 with the validation errors). *)

From stdpp Require Import gmap strings list fin_maps.
From Stdlib Require Import ZArith.

Local Open Scope string_scope.
Local Open Scope Z_scope.

#[local] Set Warnings "-register-all".

(** ** JSON values

    The request body as [json.loads] hands it to the model: a JSON object is a
    Python [dict] with string keys, hence a finite map. *)

Inductive json : Type :=
| JNull
| JBool (b : bool)
| JInt (n : Z)
| JFloat (mantissa exponent : Z)
| JString (s : string)
| JArray (items : list json)
| JObject (fields : gmap string json).

(** ** Validation errors

    One entry per failing location, as in the [detail] list of the 422 body:
    where it failed and which check failed. *)

Inductive LocItem : Type :=
| LKey (name : string)
| LIndex (i : nat).

Inductive ErrorType : Type :=
| missing
| string_type
| list_type
| dict_type
| model_attributes_type.

Record ErrorDetail : Type := mkError {
  err_type : ErrorType;
  err_loc : list LocItem
}.

(** A validator either yields the validated value or the errors it found. *)
Inductive Validated (A : Type) : Type :=
| Valid (a : A)
| Invalid (errors : list ErrorDetail).

Arguments Valid {A} a.
Arguments Invalid {A} errors.

Definition errors_of {A} (v : Validated A) : list ErrorDetail :=
  match v with
  | Valid _ => []
  | Invalid es => es
  end.

Definition is_valid {A} (v : Validated A) : bool :=
  match v with
  | Valid _ => true
  | Invalid _ => false
  end.

(** Prefix every error location with [item]: the error of a nested value is
    reported under the field or index it sits at. *)
Definition under (item : LocItem) (es : list ErrorDetail) : list ErrorDetail :=
  map (fun e => mkError (err_type e) (item :: err_loc e)) es.

(** ** Field validators *)

(** [str]: a JSON string and nothing else (numbers are not coerced). *)
Definition validate_str (v : json) : Validated string :=
  match v with
  | JString s => Valid s
  | _ => Invalid [mkError string_type []]
  end.

(** [dict[str, Any]]: any JSON object; the values are not looked at. *)
Definition validate_dict_any (v : json) : Validated (gmap string json) :=
  match v with
  | JObject m => Valid m
  | _ => Invalid [mkError dict_type []]
  end.

(** The items of a list, validated one by one from index [i] on; the errors of
    all items are collected. *)
Fixpoint validate_items {A} (item : json -> Validated A) (i : nat)
    (l : list json) : Validated (list A) :=
  match l with
  | [] => Valid []
  | x :: rest =>
      match item x, validate_items item (S i) rest with
      | Valid a, Valid r => Valid (a :: r)
      | vx, vr => Invalid (under (LIndex i) (errors_of vx) ++ errors_of vr)
      end
  end.

(** [list[T]]: a JSON array whose every item validates as [T]. *)
Definition validate_list {A} (item : json -> Validated A) (v : json)
    : Validated (list A) :=
  match v with
  | JArray l => validate_items item 0 l
  | _ => Invalid [mkError list_type []]
  end.

(** [T | None]: [null] is accepted as [None], anything else must be a [T]. *)
Definition validate_nullable {A} (inner : json -> Validated A) (v : json)
    : Validated (option A) :=
  match v with
  | JNull => Valid None
  | _ =>
      match inner v with
      | Valid a => Valid (Some a)
      | Invalid es => Invalid es
      end
  end.

(** A required field of the body. *)
Definition required_field {A} (name : string) (validate : json -> Validated A)
    (body : gmap string json) : Validated A :=
  match body !! name with
  | None => Invalid [mkError missing [LKey name]]
  | Some v =>
      match validate v with
      | Valid a => Valid a
      | Invalid es => Invalid (under (LKey name) es)
      end
  end.

(** A field with a default: taken when the key is absent. *)
Definition default_field {A} (name : string) (default : A)
    (validate : json -> Validated A) (body : gmap string json) : Validated A :=
  match body !! name with
  | None => Valid default
  | Some v =>
      match validate v with
      | Valid a => Valid a
      | Invalid es => Invalid (under (LKey name) es)
      end
  end.

(** ** The request model

    [class Message(BaseModel)] with [model_config = ConfigDict(extra="ignore")]:
    [message] is required, the four other fields default to [None]; keys of
    the body that name no field are never read. *)

Record Message : Type := mkMessage {
  message : string;
  mentioned_scrubber_ids : option (list string);
  timeline_state : option (gmap string json);
  mediabin_items : option (list (gmap string json));
  chat_history : option (list (gmap string json))
}.

Definition validate_message_field :=
  required_field "message" validate_str.

Definition validate_mentioned_scrubber_ids :=
  default_field "mentioned_scrubber_ids" None
    (validate_nullable (validate_list validate_str)).

Definition validate_timeline_state :=
  default_field "timeline_state" None (validate_nullable validate_dict_any).

Definition validate_mediabin_items :=
  default_field "mediabin_items" None
    (validate_nullable (validate_list validate_dict_any)).

Definition validate_chat_history :=
  default_field "chat_history" None
    (validate_nullable (validate_list validate_dict_any)).

(** The model validator: every field is validated, in declaration order, and
    the errors of all failing fields are reported together. *)
Definition validate_fields (fields : gmap string json) : Validated Message :=
  match validate_message_field fields,
        validate_mentioned_scrubber_ids fields,
        validate_timeline_state fields,
        validate_mediabin_items fields,
        validate_chat_history fields with
  | Valid m, Valid ids, Valid ts, Valid mb, Valid ch =>
      Valid (mkMessage m ids ts mb ch)
  | vm, vids, vts, vmb, vch =>
      Invalid (errors_of vm ++ errors_of vids ++ errors_of vts
                 ++ errors_of vmb ++ errors_of vch)
  end.

(** A body that is not a JSON object cannot be a [Message] at all; a [null]
    body counts as no body, and the body is required. *)
Definition validate_Message (payload : json) : Validated Message :=
  match payload with
  | JObject fields => validate_fields fields
  | JNull => Invalid [mkError missing []]
  | _ => Invalid [mkError model_attributes_type []]
  end.

(** ** The response envelope *)

(** Modelled from the spec: the [schema] module that declares
    [FunctionCallResponse] is not part of the sources at hand. The spec gives
    the envelope two optional fields: [function_call], a descriptor of an
    action (a name and its arguments), and [assistant_message], a text
    reply. *)
Record FunctionCall : Type := mkFunctionCall {
  name : string;
  arguments : gmap string json
}.

Record FunctionCallResponse : Type := mkFunctionCallResponse {
  function_call : option FunctionCall;
  assistant_message : option string
}.

(** ** What a handler can do

    Everything outside the request and its response that the process could
    read or change: the environment that [load_dotenv] filled in at start-up,
    and the record of actions visible outside the request (a line logged, a
    write to a store, a call to another service). A handler is a function of
    the world; it returns a value or raises an [HTTPException], and leaves a
    world behind. *)

Inductive Effect : Type :=
| LogLine (text : string)
| StorageWrite (key : string) (value : json)
| OutboundCall (url : string) (payload : json).

Record World : Type := mkWorld {
  environ : gmap string string;
  effects : list Effect
}.

Inductive Outcome (A : Type) : Type :=
| Returned (a : A)
| Raised (status_code : Z) (detail : string).

Arguments Returned {A} a.
Arguments Raised {A} status_code detail.

Definition Handler (A : Type) : Type := World -> Outcome A * World.

Definition ret {A} (a : A) : Handler A := fun w => (Returned a, w).

Definition raise {A} (status_code : Z) (detail : string) : Handler A :=
  fun w => (Raised status_code detail, w).

Definition bind {A B} (h : Handler A) (k : A -> Handler B) : Handler B :=
  fun w =>
    match h w with
    | (Returned a, w') => k a w'
    | (Raised code detail, w') => (Raised code detail, w')
    end.

Definition perform (e : Effect) : Handler unit :=
  fun w => (Returned tt, mkWorld (environ w) (effects w ++ [e])).

Definition getenv (key : string) : Handler (option string) :=
  fun w => (Returned (environ w !! key), w).

(** ** The route handler

    [process_ai_message] builds the envelope and returns it: the request is
    never read, nothing is awaited, nothing is raised. *)
Definition process_ai_message (request : Message) : Handler FunctionCallResponse :=
  ret (mkFunctionCallResponse
         None
         (Some "此功能已迁移到 Dify AI。请使用新的 AI 助手。")).

(** ** The request cycle of [POST /ai] *)

Inductive ResponseBody : Type :=
| Envelope (r : FunctionCallResponse)
| ValidationErrorBody (detail : list ErrorDetail)
| HttpErrorBody (detail : string).

Record HttpResponse : Type := mkHttpResponse {
  status : Z;
  body : ResponseBody
}.

(** The body is validated as a [Message]. A failure is answered with 422 and
    the errors, located under ["body"], and the handler is not called. On
    success the handler runs: what it returns is sent with 200, an
    [HTTPException] it raises is sent with the status it carries. *)
Definition handleChatRequest (payload : json) (w : World) : HttpResponse * World :=
  match validate_Message payload with
  | Invalid es =>
      (mkHttpResponse 422 (ValidationErrorBody (under (LKey "body") es)), w)
  | Valid request =>
      match process_ai_message request w with
      | (Returned r, w') => (mkHttpResponse 200 (Envelope r), w')
      | (Raised code detail, w') => (mkHttpResponse code (HttpErrorBody detail), w')
      end
  end.

Definition response_of (payload : json) (w : World) : HttpResponse :=
  fst (handleChatRequest payload w).

Definition world_after (payload : json) (w : World) : World :=
  snd (handleChatRequest payload w).

(** ** Vocabulary of the properties *)

(** A JSON object written as its list of members. *)
Definition object (members : list (string * json)) : json :=
  JObject (list_to_map members).

(** The 200 answer that carries the envelope of the disabled endpoint. *)
Definition ok_response : HttpResponse :=
  mkHttpResponse 200
    (Envelope (mkFunctionCallResponse
                 None
                 (Some "此功能已迁移到 Dify AI。请使用新的 AI 助手。"))).













(** The keys of the body that [Message] declares; every other key is extra. *)
Definition declared_fields : list string :=
  ["message"; "mentioned_scrubber_ids"; "timeline_state";
   "mediabin_items"; "chat_history"].

(** Put a field in the body, or take it out ([None]). *)
Definition with_field (key : string) (value : option json)
    (fields : gmap string json) : gmap string json :=
  match value with
  | Some v => <[key := v]> fields
  | None => delete key fields
  end.


Definition empty_world : World := mkWorld ∅ [].

(** ** Vocabulary of the further properties *)




Definition json_of_strings (l : list string) : json := JArray (map JString l).

Definition json_of_objects (l : list (gmap string json)) : json :=
  JArray (map JObject l).

(** What the parsed value of an optional field says of the raw one: a value
    was written as it is, [None] was absent or [null]. *)
Definition parsed_from {A} (encode : A -> json) (parsed : option A)
    (raw : option json) : Prop :=
  match parsed with
  | Some a => raw = Some (encode a)
  | None => raw = None \/ raw = Some JNull
  end.

(** The body that states a [Message] field by field; a field that is [None]
    is left out. *)
Definition payload_of (m : Message) : json :=
  JObject
    (with_field "message" (Some (JString (message m)))
       (with_field "mentioned_scrubber_ids"
          (json_of_strings <$> mentioned_scrubber_ids m)
          (with_field "timeline_state" (JObject <$> timeline_state m)
             (with_field "mediabin_items"
                (json_of_objects <$> mediabin_items m)
                (with_field "chat_history"
                   (json_of_objects <$> chat_history m) ∅))))).

(** The error reported at the location [loc] of the body. *)
Definition body_error (t : ErrorType) (loc : list LocItem) : ErrorDetail :=
  mkError t (LKey "body" :: loc).

(** * Properties *)

(** ** The validators accept exactly the declared shapes *)

Section Validators.

Context {A : Type} (item : json -> Validated A).








End Validators.












(** ** The request cycle, case by case *)

Lemma handleChatRequest_valid (payload : json) (request : Message) (w : World) :
  validate_Message payload = Valid request ->
  handleChatRequest payload w = (ok_response, w).
Proof. unfold handleChatRequest. intros ->. reflexivity. Qed.

Lemma handleChatRequest_invalid (payload : json) (es : list ErrorDetail) (w : World) :
  validate_Message payload = Invalid es ->
  handleChatRequest payload w
  = (mkHttpResponse 422 (ValidationErrorBody (under (LKey "body") es)), w).
Proof. unfold handleChatRequest. intros ->. reflexivity. Qed.

Lemma is_valid_true {A} (v : Validated A) :
  is_valid v = true <-> exists a, v = Valid a.
Proof.
  destruct v as [a|es]; simpl; split; eauto; try discriminate.
  intros [a' E]. discriminate.
Qed.


Lemma response_of_accepted (payload : json) (w : World) :
  is_valid (validate_Message payload) = true ->
  response_of payload w = ok_response.
Proof.
  intros [request E]%is_valid_true. unfold response_of.
  rewrite (handleChatRequest_valid _ _ _ E). reflexivity.
Qed.


(** ** Reading a body whose fields were replaced *)

Lemma with_field_lookup_eq (key : string) (value : option json)
    (fields : gmap string json) :
  with_field key value fields !! key = value.
Proof.
  destruct value; simpl; [apply lookup_insert_eq | apply lookup_delete_eq].
Qed.

Lemma with_field_lookup_ne (key other : string) (value : option json)
    (fields : gmap string json) :
  key <> other -> with_field key value fields !! other = fields !! other.
Proof.
  intros Hne. destruct value; simpl;
    [apply lookup_insert_ne | apply lookup_delete_ne]; exact Hne.
Qed.

Ltac read_fields :=
  repeat first
    [ rewrite with_field_lookup_eq
    | rewrite with_field_lookup_ne by discriminate ].



(** ** The handler itself *)

Lemma process_ai_message_returns (request : Message) (w : World) :
  process_ai_message request w
  = (Returned (mkFunctionCallResponse
                 None (Some "此功能已迁移到 Dify AI。请使用新的 AI 助手。")), w).
Proof. reflexivity. Qed.

(** An effect, had the handler performed one, would show in the world. *)
Lemma perform_is_observed (e : Effect) (w : World) :
  effects (snd (perform e w)) = (effects w ++ [e])%list
  /\ snd (perform e w) <> w.
Proof.
  split; [reflexivity|]. destruct w as [env es]. simpl. intros E.
  injection E as E. apply (f_equal length) in E. rewrite length_app in E.
  simpl in E. lia.
Qed.

Lemma handleChatRequest_world (payload : json) (w : World) :
  snd (handleChatRequest payload w) = w.
Proof.
  unfold handleChatRequest.
  destruct (validate_Message payload) as [request|es]; reflexivity.
Qed.

Lemma handleChatRequest_any_world (payload : json) (w1 w2 : World) :
  fst (handleChatRequest payload w1) = fst (handleChatRequest payload w2).
Proof.
  unfold handleChatRequest.
  destruct (validate_Message payload) as [request|es]; reflexivity.
Qed.


(** * The claims *)






(** C3: every input that parses into a [Message] is answered with 200 and the
    envelope whose [function_call] is [None] and whose [assistant_message] is
    the fixed text, which is not empty. The payload [{"message": "hello"}] is
    the instance of the witness. *)
Theorem C3_fixed_envelope (payload : json) (request : Message) (w : World) :
  validate_Message payload = Valid request ->
  response_of payload w
  = mkHttpResponse 200
      (Envelope (mkFunctionCallResponse
                   None
                   (Some "此功能已迁移到 Dify AI。请使用新的 AI 助手。")))
  /\ "此功能已迁移到 Dify AI。请使用新的 AI 助手。" <> "".
Proof.
  intros Hvalid. unfold response_of.
  rewrite (handleChatRequest_valid _ _ _ Hvalid). split; [reflexivity | discriminate].
Qed.

Lemma C3_hello :
  response_of (object [("message", JString "hello")]) empty_world
  = mkHttpResponse 200
      (Envelope (mkFunctionCallResponse
                   None
                   (Some "此功能已迁移到 Dify AI。请使用新的 AI 助手。"))).
Proof.
  refine (proj1 (C3_fixed_envelope
                   (object [("message", JString "hello")])
                   (mkMessage "hello" None None None None)
                   empty_world _)).
  vm_compute. reflexivity.
Defined.

(** C4: for a parsed [Message] the handler returns the envelope and never
    raises, whatever the request holds and whatever the world is; so every
    payload that parses is answered with status 200 and a
    [FunctionCallResponse] body, never with an error. *)
Theorem C4_no_error_for_parsed_message
    (payload : json) (request : Message) (w : World) :
  validate_Message payload = Valid request ->
  (exists envelope, fst (process_ai_message request w) = Returned envelope)
  /\ (forall code detail, fst (process_ai_message request w) <> Raised code detail)
  /\ (exists envelope,
        response_of payload w = mkHttpResponse 200 (Envelope envelope))
  /\ status (response_of payload w) = 200.
Proof.
  intros Hvalid. rewrite process_ai_message_returns. unfold response_of.
  rewrite (handleChatRequest_valid _ _ _ Hvalid). simpl.
  repeat split; eauto; try discriminate.
Qed.

Lemma C4_semantic_content_witness :
  status
    (response_of
       (object [("message", JString "delete every clip");
                ("mentioned_scrubber_ids", JArray [JString "no-such-id"]);
                ("chat_history", JArray [object [("role", JInt 7)]])])
       empty_world)
  = 200.
Proof.
  refine (proj2 (proj2 (proj2 (C4_no_error_for_parsed_message _
    (mkMessage "delete every clip" (Some ["no-such-id"]) None None
       (Some [{["role" := JInt 7]}]))
    empty_world _)))).
  vm_compute. reflexivity.
Defined.



(** C6: the response is a function of the payload alone. Handling the same
    payload twice, in whatever state the process is each time, yields equal
    responses, status and body. *)
Theorem C6_deterministic (payload : json) (w1 w2 : World) :
  response_of payload w1 = response_of payload w2.
Proof. apply handleChatRequest_any_world. Qed.

(** C7: handling a request leaves the world as it found it: the environment
    is unchanged and nothing is added to the record of log lines, storage
    writes and outbound calls. This holds for the handler on every [Message]
    and for the whole cycle on every payload, accepted or rejected. *)
Theorem C7_no_side_effects (payload : json) (request : Message) (w : World) :
  snd (process_ai_message request w) = w
  /\ world_after payload w = w
  /\ effects (world_after payload w) = effects w
  /\ environ (world_after payload w) = environ w.
Proof.
  unfold world_after. rewrite handleChatRequest_world. repeat split.
Qed.

(** C8: any two payloads that parse get the same response, and the handler
    returns the same result on any two [Message]s: no field of the request,
    [message] and [mentioned_scrubber_ids] included, reaches the output. *)
Theorem C8_request_does_not_matter
    (payload1 payload2 : json) (request1 request2 : Message) (w1 w2 : World) :
  validate_Message payload1 = Valid request1 ->
  validate_Message payload2 = Valid request2 ->
  response_of payload1 w1 = response_of payload2 w2
  /\ fst (process_ai_message request1 w1) = fst (process_ai_message request2 w2).
Proof.
  intros H1 H2. unfold response_of.
  rewrite (handleChatRequest_valid _ _ _ H1), (handleChatRequest_valid _ _ _ H2).
  split; reflexivity.
Qed.

Lemma C8_different_messages_witness :
  response_of
    (object [("message", JString "cut here");
             ("mentioned_scrubber_ids", JArray [JString "a"; JString "b"])])
    empty_world
  = response_of (object [("message", JString "undo")]) empty_world.
Proof.
  refine (proj1 (C8_request_does_not_matter _ _
    (mkMessage "cut here" (Some ["a"; "b"]) None None None)
    (mkMessage "undo" None None None None)
    empty_world empty_world _ _)); vm_compute; reflexivity.
Defined.

(** C9: the empty string is a valid [message]: the check on the required
    field is on presence and type, not on content. The payload
    [{"message": ""}] parses into a [Message] whose text is empty and is
    answered with 200 and the placeholder envelope. *)
Theorem C9_empty_message_accepted (w : World) :
  validate_str (JString "") = Valid ""
  /\ validate_Message (object [("message", JString "")])
     = Valid (mkMessage "" None None None None)
  /\ response_of (object [("message", JString "")]) w
     = mkHttpResponse 200
         (Envelope (mkFunctionCallResponse
                      None
                      (Some "此功能已迁移到 Dify AI。请使用新的 AI 助手。"))).
Proof.
  assert (Hparse : validate_Message (object [("message", JString "")])
                   = Valid (mkMessage "" None None None None))
    by (vm_compute; reflexivity).
  split; [reflexivity|]. split; [exact Hparse|].
  unfold response_of. rewrite (handleChatRequest_valid _ _ _ Hparse). reflexivity.
Qed.

(** * Further properties of the request model *)

(** ** The errors a validator reports *)

Section Errors.

Context {A : Type} (item : json -> Validated A).


Lemma default_field_errors (key : string) (d : A) (fields : gmap string json) :
  errors_of (default_field key d item fields)
  = match fields !! key with
    | None => []
    | Some v => under (LKey key) (errors_of (item v))
    end.
Proof.
  unfold default_field. destruct (fields !! key) as [v|]; [|reflexivity].
  destruct (item v); reflexivity.
Qed.

Lemma required_field_errors (key : string) (fields : gmap string json) :
  errors_of (required_field key item fields)
  = match fields !! key with
    | None => [mkError missing [LKey key]]
    | Some v => under (LKey key) (errors_of (item v))
    end.
Proof.
  unfold required_field. destruct (fields !! key) as [v|]; [|reflexivity].
  destruct (item v); reflexivity.
Qed.




End Errors.





(** The model reports the errors of its five fields, in declaration order. *)
Lemma validate_fields_errors (fields : gmap string json) :
  errors_of (validate_fields fields)
  = (errors_of (validate_message_field fields)
       ++ errors_of (validate_mentioned_scrubber_ids fields)
       ++ errors_of (validate_timeline_state fields)
       ++ errors_of (validate_mediabin_items fields)
       ++ errors_of (validate_chat_history fields))%list.
Proof.
  unfold validate_fields.
  destruct (validate_message_field fields),
    (validate_mentioned_scrubber_ids fields),
    (validate_timeline_state fields),
    (validate_mediabin_items fields),
    (validate_chat_history fields); reflexivity.
Qed.



Lemma Invalid_errors_of {A} (v : Validated A) :
  is_valid v = false -> v = Invalid (errors_of v).
Proof. destruct v; simpl; [discriminate | reflexivity]. Qed.

(** The 422 answer carries the errors of the model, each under ["body"]. *)
Lemma response_of_invalid (payload : json) (w : World) :
  is_valid (validate_Message payload) = false ->
  response_of payload w
  = mkHttpResponse 422
      (ValidationErrorBody
         (under (LKey "body") (errors_of (validate_Message payload)))).
Proof.
  intros Hv. unfold response_of.
  rewrite (handleChatRequest_invalid payload _ w (Invalid_errors_of _ Hv)).
  reflexivity.
Qed.













(** ** What the 422 answer says *)












(** ** What a parsed [Message] holds *)

Lemma validate_items_Valid_inv {A} (item : json -> Validated A)
    (encode : A -> json) (l : list json) (i : nat) (r : list A) :
  (forall v a, item v = Valid a -> v = encode a) ->
  validate_items item i l = Valid r -> l = map encode r.
Proof.
  intros Hitem. revert i r. induction l as [|x rest IH]; intros i r; simpl.
  - intros [= <-]. reflexivity.
  - destruct (item x) as [a|es] eqn:Hx;
      destruct (validate_items item (S i) rest) as [r'|es'] eqn:Hrest;
      try discriminate.
    intros [= <-]. simpl. rewrite (Hitem x a Hx), (IH (S i) r' Hrest). reflexivity.
Qed.

Lemma validate_items_encoded {A} (item : json -> Validated A)
    (encode : A -> json) (r : list A) (i : nat) :
  (forall a, item (encode a) = Valid a) ->
  validate_items item i (map encode r) = Valid r.
Proof.
  intros Hitem. revert i. induction r as [|a r IH]; intros i; simpl; [reflexivity|].
  rewrite Hitem, IH. reflexivity.
Qed.

Lemma validate_str_Valid_inv (v : json) (s : string) :
  validate_str v = Valid s -> v = JString s.
Proof. destruct v; simpl; intros [= <-]. reflexivity. Qed.

Lemma validate_dict_any_Valid_inv (v : json) (m : gmap string json) :
  validate_dict_any v = Valid m -> v = JObject m.
Proof. destruct v; simpl; intros [= <-]. reflexivity. Qed.

Lemma validate_strings_Valid_inv (v : json) (l : list string) :
  validate_list validate_str v = Valid l -> v = json_of_strings l.
Proof.
  destruct v; simpl; try discriminate. intros H. unfold json_of_strings.
  f_equal. exact (validate_items_Valid_inv _ JString _ _ _ validate_str_Valid_inv H).
Qed.

Lemma validate_objects_Valid_inv (v : json) (l : list (gmap string json)) :
  validate_list validate_dict_any v = Valid l -> v = json_of_objects l.
Proof.
  destruct v; simpl; try discriminate. intros H. unfold json_of_objects.
  f_equal.
  exact (validate_items_Valid_inv _ JObject _ _ _ validate_dict_any_Valid_inv H).
Qed.

Lemma optional_field_Valid_inv {A} (inner : json -> Validated A)
    (encode : A -> json) (key : string) (fields : gmap string json)
    (parsed : option A) :
  (forall v a, inner v = Valid a -> v = encode a) ->
  default_field key None (validate_nullable inner) fields = Valid parsed ->
  parsed_from encode parsed (fields !! key).
Proof.
  intros Hinner. unfold default_field.
  destruct (fields !! key) as [v|].
  - destruct (validate_nullable inner v) as [o|es] eqn:Hv; [|discriminate].
    intros [= <-]. revert Hv. unfold validate_nullable.
    destruct v; try (intros [= <-]; right; reflexivity);
      match goal with
      | |- context [inner ?v] =>
          destruct (inner v) as [a|es] eqn:Ha; [|discriminate];
          intros [= <-]; simpl; rewrite (Hinner _ _ Ha); reflexivity
      end.
  - intros [= <-]. left. reflexivity.
Qed.

Lemma validate_fields_Valid_inv (fields : gmap string json) (request : Message) :
  validate_fields fields = Valid request ->
  validate_message_field fields = Valid (message request)
  /\ validate_mentioned_scrubber_ids fields = Valid (mentioned_scrubber_ids request)
  /\ validate_timeline_state fields = Valid (timeline_state request)
  /\ validate_mediabin_items fields = Valid (mediabin_items request)
  /\ validate_chat_history fields = Valid (chat_history request).
Proof.
  unfold validate_fields.
  destruct (validate_message_field fields),
    (validate_mentioned_scrubber_ids fields),
    (validate_timeline_state fields),
    (validate_mediabin_items fields),
    (validate_chat_history fields); try discriminate.
  intros [= <-]. simpl. repeat split.
Qed.

(** The parsed [Message] holds what the body said and nothing else: the text
    of [message] as it was sent; for each optional field the very list or
    object of the body, items and content untouched, or [None] when the field
    was absent or [null]. Nothing is coerced, trimmed, reordered or
    defaulted to an empty list. *)
Theorem parsed_message_is_the_body (fields : gmap string json)
    (request : Message) :
  validate_Message (JObject fields) = Valid request ->
  fields !! "message" = Some (JString (message request))
  /\ parsed_from json_of_strings (mentioned_scrubber_ids request)
       (fields !! "mentioned_scrubber_ids")
  /\ parsed_from JObject (timeline_state request) (fields !! "timeline_state")
  /\ parsed_from json_of_objects (mediabin_items request)
       (fields !! "mediabin_items")
  /\ parsed_from json_of_objects (chat_history request)
       (fields !! "chat_history").
Proof.
  simpl. intros (Hm & Hids & Hts & Hmb & Hch)%validate_fields_Valid_inv.
  repeat split.
  - revert Hm. unfold validate_message_field, required_field.
    destruct (fields !! "message") as [v|]; [|discriminate].
    destruct (validate_str v) as [s|es] eqn:Hv; [|discriminate].
    intros [= <-]. rewrite (validate_str_Valid_inv v s Hv). reflexivity.
  - exact (optional_field_Valid_inv _ _ _ _ _ validate_strings_Valid_inv Hids).
  - exact (optional_field_Valid_inv _ _ _ _ _ validate_dict_any_Valid_inv Hts).
  - exact (optional_field_Valid_inv _ _ _ _ _ validate_objects_Valid_inv Hmb).
  - exact (optional_field_Valid_inv _ _ _ _ _ validate_objects_Valid_inv Hch).
Qed.

Lemma parsed_message_is_the_body_witness :
  let fields : gmap string json :=
    {["message" := JString " cut @a ";
      "mentioned_scrubber_ids" := JArray [JString "a"];
      "timeline_state" := JNull;
      "mediabin_items" := JArray []]} in
  fields !! "message" = Some (JString " cut @a ")
  /\ parsed_from json_of_strings (Some ["a"]) (fields !! "mentioned_scrubber_ids")
  /\ parsed_from JObject None (fields !! "timeline_state")
  /\ parsed_from json_of_objects (Some []) (fields !! "mediabin_items")
  /\ parsed_from json_of_objects None (fields !! "chat_history").
Proof.
  cbv zeta.
  refine (parsed_message_is_the_body _
            (mkMessage " cut @a " (Some ["a"]) None (Some []) None) _).
  vm_compute. reflexivity.
Defined.

Lemma optional_field_encoded {A} (inner : json -> Validated A)
    (encode : A -> json) (key : string) (fields : gmap string json)
    (parsed : option A) :
  (forall a, inner (encode a) = Valid a) ->
  (forall a, encode a <> JNull) ->
  fields !! key = encode <$> parsed ->
  default_field key None (validate_nullable inner) fields = Valid parsed.
Proof.
  intros Hinner Hnull Hkey. unfold default_field. rewrite Hkey.
  destruct parsed as [a|]; simpl; [|reflexivity].
  unfold validate_nullable. rewrite Hinner.
  specialize (Hnull a). destruct (encode a); try reflexivity.
  destruct Hnull. reflexivity.
Qed.

Lemma validate_strings_encoded (l : list string) :
  validate_list validate_str (json_of_strings l) = Valid l.
Proof. apply validate_items_encoded. reflexivity. Qed.

Lemma validate_objects_encoded (l : list (gmap string json)) :
  validate_list validate_dict_any (json_of_objects l) = Valid l.
Proof. apply validate_items_encoded. reflexivity. Qed.

(** Every [Message] can be sent and comes back the same: the body that states
    its fields parses, and parses into that very [Message]. So the model
    loses nothing and every value of [Message] is one a request can produce,
    the empty text and the empty lists included. *)
Theorem payload_of_parses_back (m : Message) :
  validate_Message (payload_of m) = Valid m.
Proof.
  destruct m as [msg ids ts mb ch].
  unfold payload_of, validate_Message, validate_fields.
  cbn [message mentioned_scrubber_ids timeline_state mediabin_items chat_history].
  assert (Hmsg : validate_message_field
                   (with_field "message" (Some (JString msg))
                      (with_field "mentioned_scrubber_ids" (json_of_strings <$> ids)
                         (with_field "timeline_state" (JObject <$> ts)
                            (with_field "mediabin_items" (json_of_objects <$> mb)
                               (with_field "chat_history" (json_of_objects <$> ch) ∅)))))
                 = Valid msg).
  { unfold validate_message_field, required_field. read_fields. reflexivity. }
  rewrite Hmsg. clear Hmsg.
  unfold validate_mentioned_scrubber_ids, validate_timeline_state,
    validate_mediabin_items, validate_chat_history.
  rewrite (optional_field_encoded _ json_of_strings "mentioned_scrubber_ids" _ ids);
    [|exact validate_strings_encoded|discriminate|read_fields; reflexivity].
  rewrite (optional_field_encoded _ JObject "timeline_state" _ ts);
    [|reflexivity|discriminate|read_fields; reflexivity].
  rewrite (optional_field_encoded _ json_of_objects "mediabin_items" _ mb);
    [|exact validate_objects_encoded|discriminate|read_fields; reflexivity].
  rewrite (optional_field_encoded _ json_of_objects "chat_history" _ ch);
    [|exact validate_objects_encoded|discriminate|read_fields; reflexivity].
  reflexivity.
Qed.

(** ** [null] and absence *)




(** ** Where the errors point *)

Lemma under_key_located (key : string) (es : list ErrorDetail) :
  In key declared_fields ->
  Forall (fun e => exists key' loc,
            In key' declared_fields /\ err_loc e = LKey key' :: loc)
         (under (LKey key) es).
Proof.
  intros Hin. apply Forall_forall. intros e [e0 [-> _]]%list_elem_of_fmap.
  exists key. eexists. split; [exact Hin | reflexivity].
Qed.

Lemma default_field_located {A} (inner : json -> Validated A) (key : string)
    (d : A) (fields : gmap string json) :
  In key declared_fields ->
  Forall (fun e => exists key' loc,
            In key' declared_fields /\ err_loc e = LKey key' :: loc)
         (errors_of (default_field key d inner fields)).
Proof.
  intros Hin. rewrite default_field_errors.
  destruct (fields !! key); [apply under_key_located, Hin | constructor].
Qed.

Lemma validate_fields_located (fields : gmap string json) :
  Forall (fun e => exists key loc,
            In key declared_fields /\ err_loc e = LKey key :: loc)
         (errors_of (validate_fields fields)).
Proof.
  rewrite validate_fields_errors. repeat apply Forall_app_2.
  - unfold validate_message_field. rewrite required_field_errors.
    destruct (fields !! "message").
    + apply under_key_located. left. reflexivity.
    + repeat constructor. exists "message", []. split; [left|]; reflexivity.
  - apply default_field_located. right. left. reflexivity.
  - apply default_field_located. right. right. left. reflexivity.
  - apply default_field_located. right. right. right. left. reflexivity.
  - apply default_field_located. right. right. right. right. left. reflexivity.
Qed.

(** When a body that is an object is rejected, every error of the detail is
    located at one of the five declared fields, under ["body"]: a key that
    [Message] does not declare is never the reason of a rejection. *)
Theorem errors_point_at_declared_fields (fields : gmap string json)
    (w : World) (detail : list ErrorDetail) :
  response_of (JObject fields) w
  = mkHttpResponse 422 (ValidationErrorBody detail) ->
  Forall (fun e => exists key loc,
            In key declared_fields
            /\ err_loc e = LKey "body" :: LKey key :: loc)
         detail.
Proof.
  destruct (is_valid (validate_Message (JObject fields))) eqn:Hv.
  - rewrite (response_of_accepted _ w Hv). discriminate.
  - rewrite (response_of_invalid _ w Hv). intros [= <-]. simpl.
    pose proof (validate_fields_located fields) as Hloc.
    apply Forall_forall. intros e [e0 [-> Hin%list_elem_of_In]]%list_elem_of_fmap.
    rewrite Forall_forall in Hloc.
    destruct (Hloc e0) as (key & loc & Hkey & Hl); [apply list_elem_of_In, Hin|].
    exists key, loc. simpl. rewrite Hl. split; [exact Hkey | reflexivity].
Qed.

Lemma errors_point_at_declared_fields_witness :
  Forall (fun e => exists key loc,
            In key declared_fields
            /\ err_loc e = LKey "body" :: LKey key :: loc)
         [body_error missing [LKey "message"];
          body_error dict_type [LKey "chat_history"; LIndex 0]].
Proof.
  apply (errors_point_at_declared_fields
           {["chat_history" := JArray [JInt 1]; "note" := JInt 2]} empty_world).
  vm_compute. reflexivity.
Defined.
